(** * binja_weggli: the weggli search plugin for Binary Ninja

    A shallow embedding of [src/binja_weggli.py].  The plugin class
    [WeggliPlugin] is glue between three external collaborators: the host's
    binary view (functions, call sites, linear disassembly), the weggli
    matcher (parse, identifiers, matches, display) and the host's log and
    report viewer.  The collaborators are taken as records of operations;
    everything the plugin itself computes is written out below.

    Effects are kept explicit: a run produces the ordered list of the
    events it caused (log lines, the report shown, calls across the two
    external boundaries) and either returns or raises. *)

From Stdlib Require Import ZArith String Ascii HexString DecimalString List Lia.
From stdpp Require Import gmap strings list.
From Equations Require Import Equations.

Open Scope string_scope.
Open Scope list_scope.

(** ** Python strings *)

Module PyStr.

(** [s.find(sub)]: the lowest index at which [sub] occurs in [s], or -1. *)
Definition find (s sub : string) : Z :=
  match index 0 sub s with
  | Some n => Z.of_nat n
  | None => (-1)%Z
  end.

(** [s.count(c)] for a one-character [c]. *)
Fixpoint count (s : string) (c : ascii) : nat :=
  match s with
  | EmptyString => 0
  | String a s' => (if Ascii.eqb a c then 1 else 0) + count s' c
  end.

(** [c in s] for a one-character [c]. *)
Definition contains (s : string) (c : ascii) : Prop :=
  In c (list_ascii_of_string s).

(** [sep.join(parts)]. *)
Fixpoint join (sep : string) (parts : list string) : string :=
  match parts with
  | [] => ""
  | [p] => p
  | p :: ps => p +:+ sep +:+ join sep ps
  end.

(** [str(n)] of a non-negative integer (a [len]). *)
Definition str (n : nat) : string := NilZero.string_of_uint (Nat.to_uint n).

(** [hex(z)]: lower-case digits behind [0x], the sign in front. *)
Definition hex (z : Z) : string := HexString.of_Z z.

(** The double-quote character, for string literals that hold one. *)
Definition dq : string := String (ascii_of_nat 34) EmptyString.

(** The line feed. *)
Definition nl : string := String (ascii_of_nat 10) EmptyString.

End PyStr.

(** ** Events and the run monad *)

Inductive event : Type :=
| log_warn (msg : string)
| log_info (msg : string)
| log_error (msg : string)
| show_html_report (title contents : string)
| called_get_callers (addr : Z)
| called_matches (code : string).

(** What the operator can see: log lines and the report, not the calls. *)
Definition is_output (e : event) : bool :=
  match e with
  | called_get_callers _ | called_matches _ => false
  | _ => true
  end.

Definition is_log_error (e : event) : bool :=
  match e with log_error _ => true | _ => false end.

Definition is_call (e : event) : bool := negb (is_output e).

Inductive exn : Type := ParseError.

Inductive outcome (A : Type) : Type :=
| Returned (a : A)
| Raised (e : exn).
Arguments Returned {A} a.
Arguments Raised {A} e.

(** A computation: the events it emitted, in order, and how it ended. *)
Definition M (A : Type) : Type := list event * outcome A.

Definition ret {A} (a : A) : M A := ([], Returned a).

Definition bind {A B} (m : M A) (k : A -> M B) : M B :=
  match m with
  | (t, Returned a) => let '(t', r) := k a in (t ++ t', r)
  | (t, Raised e) => (t, Raised e)
  end.

Definition emit (e : event) : M unit := ([e], Returned tt).

Definition raise {A} (e : exn) : M A := ([], Raised e).

Notation "x <- m ;; k" := (bind m (fun x => k))
  (at level 62, m at next level, right associativity).
Notation "m ;;; k" := (bind m (fun _ => k))
  (at level 62, right associativity).

Definition trace {A} (m : M A) : list event := fst m.
Definition result {A} (m : M A) : outcome A := snd m.

(** [for x in xs: s = body(x, s)] with the loop-carried state [s]. *)
Fixpoint for_each {A S} (xs : list A) (body : A -> S -> M S) (s : S) : M S :=
  match xs with
  | [] => ret s
  | x :: xs' => s' <- body x s ;; for_each xs' body s'
  end.

(** ** Query normalization (run_query, lines 57-62) *)

Definition warn_semicolon : string :=
  "The query did not have a semi-colon, naively appending one.".

Definition warn_braces : string :=
  "The query did not have braces, naively adjusting by adding beginning and ending ones.".

Definition add_semicolon (query : string) : M string :=
  if (PyStr.find query ";" <? 0)%Z
  then emit (log_warn warn_semicolon) ;;; ret (query +:+ ";")
  else ret query.

Definition add_braces (query : string) : M string :=
  if ((PyStr.find query "{" <? 0) || (PyStr.find query "}" <? 0))%Z
  then emit (log_warn warn_braces) ;;; ret ("{" +:+ query +:+ "}")
  else ret query.

Definition normalize (query : string) : M string :=
  q <- add_semicolon query ;; add_braces q.


(** ** Host objects *)

(** The host's token kinds.  Only [TagToken] is named by the plugin. *)
Inductive InstructionTextTokenType : Type :=
| TagToken
| OtherToken (kind : Z).

Definition is_TagToken (ty : InstructionTextTokenType) : bool :=
  match ty with TagToken => true | OtherToken _ => false end.

(** A token: its [type] and the text that [str(token)] gives. *)
Record InstructionTextToken : Type := {
  token_type : InstructionTextTokenType;
  token_str : string
}.

(** A line of the linear view; [tokens] stands for [line.contents.tokens]. *)
Record LinearDisassemblyLine : Type := {
  tokens : list InstructionTextToken
}.

(** A function of the binary.  [full_name] stands for [symbol.full_name];
    [truth] is the truth value Python gives the object in [if not target]
    (decided by the host's class, which is not part of this repository).
    Two objects are the same member of a set when their fields agree. *)
Record Function : Type := {
  start : Z;
  name : string;
  full_name : string;
  highest_address : Z;
  truth : bool
}.

#[global] Instance Function_eq_dec : EqDecision Function.
Proof. solve_decision. Defined.

#[global] Instance Function_countable : Countable Function.
Proof.
  refine (inj_countable'
    (fun f => (start f, name f, full_name f, highest_address f, truth f))
    (fun t => let '(s, n, fn, h, b) := t in
              {| start := s; name := n; full_name := fn;
                 highest_address := h; truth := b |}) _).
  by intros [].
Defined.

(** A cross reference; only its [address] is read. *)
Record ReferenceSource : Type := {
  address : Z
}.

(** The loaded binary, as far as the plugin reads it.  The two line
    queries take the address the cursor was moved to just before. *)
Record BinaryView : Type := {
  functions : list Function;
  get_callers : Z -> list ReferenceSource;
  get_functions_containing : Z -> list Function;
  get_next_linear_disassembly_lines : Z -> list LinearDisassemblyLine;
  get_previous_linear_disassembly_lines : Z -> list LinearDisassemblyLine
}.

(** The weggli module: [parse_query] gives [None] where it raises. *)
Record Weggli : Type := {
  QueryTree : Type;
  QueryResult : Type;
  parse_query : string -> option QueryTree;
  identifiers : QueryTree -> list string;
  matches : QueryTree -> string -> list QueryResult;
  display : QueryResult -> string -> bool -> string
}.

(** The user interface: three theme colour names and the ANSI converter
    ([convert] with [full = False, ensure_trailing_newline = True]). *)
Record UI : Type := {
  CommentColor : string;
  LinearDisassemblyBlockColor : string;
  RedStandardHighlightColor : string;
  convert : string -> string
}.

(** A Python value that is either [None] or a [str]. *)
Inductive pyobj : Type :=
| PyNone
| PyString (s : string).

(** [x != None]. *)
Definition ne_None (x : pyobj) : bool :=
  match x with PyNone => false | PyString _ => true end.

(** The plugin object. *)
Record WeggliPlugin : Type := {
  bv : BinaryView;
  print_code : bool;
  output_format : string
}.

(** ** WeggliPlugin.get_function *)

Definition get_function (self : WeggliPlugin) (name' : string) : option Function :=
  List.find (fun f => String.eqb (name f) name') (functions (bv self)).

(** ** WeggliPlugin.decompile *)

(** The text of one line: its tokens' strings, tag tokens left out. *)
Definition line_text (line : LinearDisassemblyLine) : string :=
  PyStr.join ""
    (map token_str
       (List.filter (fun token => negb (is_TagToken (token_type token)))
          (tokens line))).

Definition decompile (self : WeggliPlugin) (func : Function) : pyobj :=
  let end_lines :=
    get_next_linear_disassembly_lines (bv self) (highest_address func) in
  let start_lines :=
    get_previous_linear_disassembly_lines (bv self) (highest_address func) in
  let lines := start_lines ++ end_lines in
  PyString (PyStr.join PyStr.nl (map line_text lines)).

(** ** WeggliPlugin.xrefs_to

    The method is a generator function: a call returns a generator
    object and runs nothing.  The object asks the host for the call sites
    at its first [next], and for the functions around a call site when it
    reaches that site. *)

Inductive generator : Type :=
| Unstarted (f : Function)
| Running (pending : list Function) (sites : list ReferenceSource).

Definition xrefs_to (self : WeggliPlugin) (f : Function) : generator :=
  Unstarted f.

(** Move on to the first call site that has a function around it. *)
Fixpoint advance (self : WeggliPlugin) (sites : list ReferenceSource)
  : option (Function * generator) :=
  match sites with
  | [] => None
  | xref :: sites' =>
      match get_functions_containing (bv self) (address xref) with
      | g :: pending => Some (g, Running pending sites')
      | [] => advance self sites'
      end
  end.

(** [next(gen)]: the value yielded and the object afterwards, or [None]
    for [StopIteration]. *)
Definition next (self : WeggliPlugin) (gen : generator)
  : option (Function * generator) :=
  match gen with
  | Unstarted f => advance self (get_callers (bv self) (start f))
  | Running (g :: pending) sites => Some (g, Running pending sites)
  | Running [] sites => advance self sites
  end.

Fixpoint sites_weight (self : WeggliPlugin) (sites : list ReferenceSource) : nat :=
  match sites with
  | [] => 0
  | xref :: sites' =>
      S (length (get_functions_containing (bv self) (address xref)))
      + sites_weight self sites'
  end.

Definition weight (self : WeggliPlugin) (gen : generator) : nat :=
  match gen with
  | Unstarted f => S (sites_weight self (get_callers (bv self) (start f)))
  | Running pending sites => length pending + sites_weight self sites
  end.

(** A value together with the equation that names it. *)
Definition inspect {A} (a : A) : {b : A | a = b} := exist _ a eq_refl.

(** Iterating a generator object until it stops, as [set(gen)] and
    [work.intersection_update(gen)] do: the values in the order yielded,
    and the object that is left. *)
Equations? exhaust (self : WeggliPlugin) (gen : generator)
  : list Function * generator by wf (weight self gen) lt :=
  exhaust self gen with inspect (next self gen) => {
    | exist _ None _ := ([], gen);
    | exist _ (Some (g, gen')) H :=
        (g :: fst (exhaust self gen'), snd (exhaust self gen')) }.
Proof.
  all: assert (Hadv : forall sites g0 gen0,
    advance self sites = Some (g0, gen0) ->
    weight self gen0 < sites_weight self sites).
  1, 3: induction sites as [|xref sites IH]; simpl; [discriminate|];
    intros g0 gen0;
    destruct (get_functions_containing (bv self) (address xref));
    [ intros E; specialize (IH _ _ E); simpl; lia
    | intros [= <- <-]; simpl; lia ].
  all: destruct gen as [f|[|g0 pending] sites]; simpl in H;
    [ apply Hadv in H; simpl; lia
    | apply Hadv in H; simpl; lia
    | injection H as <- <-; simpl; lia ].
Qed.

Definition drain (self : WeggliPlugin) (gen : generator) : list Function :=
  fst (exhaust self gen).

(** ** WeggliPlugin.run_query *)

Definition Log : string := "Log".
Definition ReportTab : string := "Report Tab".

Section Plugin.

Context (W : Weggli) (ui : UI).

(** The report up to and including the search query (lines 75-92). *)
Definition report_head (query : string) : string :=
  let fg := CommentColor ui in
  let bg := LinearDisassemblyBlockColor ui in
  let red := RedStandardHighlightColor ui in
  String.concat "" [
    "<!DOCTYPE html>"; PyStr.nl;
    "    <html>"; PyStr.nl;
    "    <head>"; PyStr.nl;
    "    <meta http-equiv="; PyStr.dq; "Content-Type"; PyStr.dq;
      " content="; PyStr.dq; "text/html; charset=utf-8"; PyStr.dq; ">"; PyStr.nl;
    "    <title>Weggli Report</title>"; PyStr.nl;
    "    <style type="; PyStr.dq; "text/css"; PyStr.dq; ">"; PyStr.nl;
    "    .ansi2html-content { display: inline; white-space: pre-wrap; word-wrap: break-word; }"; PyStr.nl;
    "    .body_foreground { color: "; fg; "; }"; PyStr.nl;
    "    .body_background { background-color: "; bg; "; }"; PyStr.nl;
    "    .inv_foreground { color: "; bg; "; }"; PyStr.nl;
    "    .inv_background { background-color: "; fg; "; }"; PyStr.nl;
    "    .ansi31 { color: "; red; " }"; PyStr.nl;
    "    </style>"; PyStr.nl;
    "    </head>"; PyStr.nl;
    "    <body>"; PyStr.nl;
    "    ";
    "<h2>Weggli Query</h2>";
    "<dl><dt>Search Query</dt><dd><pre>"; query; "</pre></dd></dl>" ].

Definition report_tail : string := "</body></html>".

(** The log line of a function with matches (line 112). *)
Definition match_line (n : nat) (target : Function) : string :=
  PyStr.str n +:+ " matches in " +:+ full_name target +:+ " @ "
    +:+ PyStr.hex (start target).

(** The report entry of a function with matches (line 115). *)
Definition result_div (n : nat) (target : Function) : string :=
  String.concat "" [
    "<div class="; PyStr.dq; "result"; PyStr.dq; ">"; PyStr.str n;
    " matches in <a href="; PyStr.dq; "binaryninja://?expr=";
    full_name target; PyStr.dq; ">"; full_name target; "</a> @ <a href=";
    PyStr.dq; "binaryninja://?expr="; PyStr.hex (start target); PyStr.dq;
    ">"; PyStr.hex (start target); "</a></div>" ].

(** The report entry of one matched span (line 124). *)
Definition code_div (pretty_code : string) : string :=
  String.concat "" [
    "<div class="; PyStr.dq; "ansi2html-content"; PyStr.dq; "><pre><code>";
    convert ui pretty_code; "</code></pre></div>" ].

Definition searching (n : nat) : string :=
  "Searching through " +:+ PyStr.str n +:+ " functions..".

Definition decompilation_failed (target : Function) : string :=
  "Decompilation failed for " +:+ name target +:+ ". Skipping..".

(** [set(self.xrefs_to(f))], with the host call it makes on record. *)
Definition callers_set (self : WeggliPlugin) (f : Function) : M (gset Function) :=
  emit (called_get_callers (start f)) ;;;
  ret (list_to_set (drain self (xrefs_to self f))).

(** One round of the loop of line 97:
    [work.intersection_update(self.xrefs_to(f))]. *)
Definition intersection_update (self : WeggliPlugin) (f : Function)
    (work : gset Function) : M (gset Function) :=
  s <- callers_set self f ;; ret (work ∩ s).

(** Lines 95-98: the working set of the anchors [f0 :: rest]. *)
Definition reduce (self : WeggliPlugin) (f0 : Function) (rest : list Function)
  : M (gset Function) :=
  work <- callers_set self f0 ;;
  for_each rest (intersection_update self) work.

(** Lines 118-124: one matched span. *)
Definition show_result (self : WeggliPlugin) (code : string)
    (r : QueryResult W) (report : string) : M string :=
  (if String.eqb (output_format self) Log
   then emit (log_info (display W r code false))
   else ret tt) ;;;
  ret (if String.eqb (output_format self) ReportTab
       then report +:+ code_div (display W r code true)
       else report).

(** Lines 104-126: the body of the loop over the working set.  The
    branch on [code != None] is the match on the rendered value. *)
Definition search_target (self : WeggliPlugin) (qt : QueryTree W)
    (target : Function) (report : string) : M string :=
  if negb (truth target) then ret report
  else
    match decompile self target with
    | PyString code =>
        emit (called_matches code) ;;;
        let results := matches W qt code in
        if (0 <? length results)%nat then
          (if String.eqb (output_format self) Log
           then emit (log_info (match_line (length results) target))
           else ret tt) ;;;
          let report :=
            if String.eqb (output_format self) ReportTab
            then report +:+ result_div (length results) target
            else report in
          if print_code self
          then for_each results (show_result self code) report
          else ret report
        else ret report
    | PyNone =>
        emit (log_error (decompilation_failed target)) ;;; ret report
    end.

(** Lines 94-126. *)
Definition search (self : WeggliPlugin) (qt : QueryTree W)
    (referenced_funcs : list Function) (report : string) : M string :=
  match referenced_funcs with
  | [] => ret report
  | f0 :: rest =>
      work <- reduce self f0 rest ;;
      emit (log_info (searching (size work))) ;;;
      let report :=
        if String.eqb (output_format self) ReportTab
        then report +:+ "<p>" +:+ searching (size work) +:+ "</p>"
        else report in
      for_each (elements work) (search_target self qt) report
  end.

(** Lines 68-70: the identifiers that name a function, resolved. *)
Definition resolve (self : WeggliPlugin) (ids : list string) : list Function :=
  omap (get_function self) ids.

Definition run_query (self : WeggliPlugin) (query : string) : M unit :=
  query <- normalize query ;;
  qt <- match parse_query W query with
        | Some qt => ret qt
        | None => raise ParseError
        end ;;
  let referenced_funcs := resolve self (identifiers W qt) in
  let report :=
    if String.eqb (output_format self) ReportTab
    then report_head query else "" in
  report <- search self qt referenced_funcs report ;;
  if String.eqb (output_format self) ReportTab
  then emit (show_html_report "Weggli Results" (report +:+ report_tail))
  else ret tt.

End Plugin.

(** ** Pure views of the run, used to state the properties *)

(** The state after a loop whose rounds return [step x s], and the
    events of its rounds in order. *)
Fixpoint loop_state {A S} (xs : list A) (step : A -> S -> S) (s : S) : S :=
  match xs with
  | [] => s
  | x :: xs' => loop_state xs' step (step x s)
  end.

Fixpoint loop_trace {A S} (xs : list A) (body : A -> S -> M S)
    (step : A -> S -> S) (s : S) : list event :=
  match xs with
  | [] => []
  | x :: xs' => trace (body x s) ++ loop_trace xs' body step (step x s)
  end.


(** The query that normalization hands to the parser. *)
Definition normalized (query : string) : string :=
  match result (normalize query) with
  | Returned q => q
  | Raised _ => query
  end.

(** The callers of [f], as a set. *)
Definition callers (self : WeggliPlugin) (f : Function) : gset Function :=
  list_to_set (drain self (xrefs_to self f)).

(** The values a generator object has yet to yield. *)
Definition yields (self : WeggliPlugin) (gen : generator) : list Function :=
  let around := fun xref => get_functions_containing (bv self) (address xref) in
  match gen with
  | Unstarted f => flat_map around (get_callers (bv self) (start f))
  | Running pending sites => pending ++ flat_map around sites
  end.

(** The working set after one more anchor. *)
Definition intersect_callers (self : WeggliPlugin) (f : Function)
    (work : gset Function) : gset Function :=
  work ∩ callers self f.

(** The text [decompile] gives. *)
Definition rendered (self : WeggliPlugin) (func : Function) : string :=
  match decompile self func with
  | PyString code => code
  | PyNone => ""
  end.

Section Views.

Context (W : Weggli) (ui : UI) (self : WeggliPlugin).

(** The report after one matched span. *)
Definition show_result_report (code : string) (r : QueryResult W)
    (report : string) : string :=
  if String.eqb (output_format self) ReportTab
  then report +:+ code_div ui (display W r code true)
  else report.

(** The report after the round of one function of the working set. *)
Definition search_target_report (qt : QueryTree W) (target : Function)
    (report : string) : string :=
  if negb (truth target) then report
  else
    let code := rendered self target in
    let results := matches W qt code in
    if (0 <? length results)%nat then
      let report :=
        if String.eqb (output_format self) ReportTab
        then report +:+ result_div (length results) target
        else report in
      if print_code self
      then loop_state results (show_result_report code) report
      else report
    else report.

(** The match line or result entry of [target] is among what a round
    produced: the line in the log, or the entry appended to the report. *)
Definition emits_entry (n : nat) (target : Function) (report : string)
    (round : M string) : Prop :=
  (output_format self = Log /\
   In (log_info (match_line n target)) (trace round)) \/
  (output_format self = ReportTab /\
   exists more,
     result round = Returned (report +:+ result_div n target +:+ more)).

(** A round that shows the operator nothing and leaves the report. *)
Definition silent (report : string) (round : M string) : Prop :=
  List.filter is_output (trace round) = [] /\
  result round = Returned report.

End Views.

(** The working set of the anchors [f0 :: rest]. *)
Definition reduced (self : WeggliPlugin) (f0 : Function) (rest : list Function)
  : gset Function :=
  loop_state rest (intersect_callers self) (callers self f0).

(** The report as it stands when the search starts. *)
Definition initial_report (ui : UI) (self : WeggliPlugin) (query : string) : string :=
  if String.eqb (output_format self) ReportTab then report_head ui query else "".

(** The report as it stands when the search is over. *)
Definition search_report (W : Weggli) (ui : UI) (self : WeggliPlugin)
    (qt : QueryTree W) (referenced_funcs : list Function) (report : string) : string :=
  match result (search W ui self qt referenced_funcs report) with
  | Returned r => r
  | Raised _ => report
  end.

(** ** A small binary, a matcher and a theme to run the plugin on

    [memcpy] is called from [parse_header] and from [copy_block];
    [strlen] is called from [parse_header] only.  [empty_fn], which calls
    [free], renders to no line at all.  The matcher counts the lines of
    the rendered text that hold the query's first identifier. *)
Module Demo.

Definition fn (a : Z) (n : string) : Function :=
  {| start := a; name := n; full_name := "demo::" +:+ n;
     highest_address := a + 15; truth := true |}.

Definition memcpy := fn 4096 "memcpy".
Definition strlen := fn 4128 "strlen".
Definition free := fn 4160 "free".
Definition parse_header := fn 8192 "parse_header".
Definition copy_block := fn 8448 "copy_block".
Definition empty_fn := fn 8704 "empty_fn".

Definition word (s : string) : InstructionTextToken :=
  {| token_type := OtherToken 0; token_str := s |}.

Definition tag : InstructionTextToken :=
  {| token_type := TagToken; token_str := "<tag>" |}.

Definition line (ts : list InstructionTextToken) : LinearDisassemblyLine :=
  {| tokens := ts |}.

Definition view : BinaryView :=
  {| functions := [memcpy; strlen; free; parse_header; copy_block; empty_fn];
     get_callers := fun a =>
       if (a =? 4096)%Z then [ {| address := 8200 |}; {| address := 8460 |} ]
       else if (a =? 4128)%Z then [ {| address := 8196 |} ]
       else if (a =? 4160)%Z then [ {| address := 8708 |} ]
       else [];
     get_functions_containing := fun a =>
       if ((8192 <=? a) && (a <? 8208))%Z then [parse_header]
       else if ((8448 <=? a) && (a <? 8464))%Z then [copy_block]
       else if ((8704 <=? a) && (a <? 8720))%Z then [empty_fn]
       else [];
     get_next_linear_disassembly_lines := fun a =>
       if (a =? 8207)%Z
       then [ line [word "    memcpy(dst, src, strlen(src));"]; line [word "}"] ]
       else if (a =? 8463)%Z
       then [ line [word "    memcpy(dst, src, n);"]; line [word "}"] ]
       else [];
     get_previous_linear_disassembly_lines := fun a =>
       if (a =? 8207)%Z
       then [ line [word "void parse_header(char* dst, char* src)"];
              line [tag; word "{"] ]
       else if (a =? 8463)%Z
       then [ line [word "void copy_block(char* dst, char* src, int n)"];
              line [tag; word "{"] ]
       else [] |}.

Fixpoint lines_of (acc s : string) : list string :=
  match s with
  | EmptyString => [acc]
  | String c s' =>
      if Ascii.eqb c (ascii_of_nat 10) then acc :: lines_of "" s'
      else lines_of (acc +:+ String c EmptyString) s'
  end.

Fixpoint idents (acc s : string) : list string :=
  let flush := if String.eqb acc "" then [] else [acc] in
  match s with
  | EmptyString => flush
  | String c s' =>
      let n := nat_of_ascii c in
      if ((97 <=? n) && (n <=? 122))%nat || (n =? 95)%nat
      then idents (acc +:+ String c EmptyString) s'
      else flush ++ idents "" s'
  end.

Definition weggli : Weggli :=
  {| QueryTree := string;
     QueryResult := string;
     parse_query := fun q =>
       if (PyStr.find q "<<" <? 0)%Z then Some q else None;
     identifiers := fun qt => idents "" qt;
     matches := fun qt code =>
       match idents "" qt with
       | [] => []
       | i :: _ =>
           List.filter (fun l => negb (PyStr.find l i <? 0)%Z) (lines_of "" code)
       end;
     display := fun r code color =>
       if color then "[1m" +:+ r +:+ "[0m" else r |}.

Definition ui : UI :=
  {| CommentColor := "#808080";
     LinearDisassemblyBlockColor := "#2a2a2a";
     RedStandardHighlightColor := "#de8f97";
     convert := fun s => s +:+ PyStr.nl |}.

Definition plugin (fmt : string) : WeggliPlugin :=
  {| bv := view; print_code := true; output_format := fmt |}.

End Demo.

(** ** Further views of a run *)

Definition is_show_html_report (e : event) : bool :=
  match e with show_html_report _ _ => true | _ => false end.

Definition is_called_matches (e : event) : bool :=
  match e with called_matches _ => true | _ => false end.

Definition is_called_get_callers (e : event) : bool :=
  match e with called_get_callers _ => true | _ => false end.

(** Strings put one behind the other. *)
Definition joined (parts : list string) : string :=
  foldr String.append "" parts.

Section Entries_of_a_round.

Context (W : Weggli) (ui : UI) (self : WeggliPlugin) (qt : QueryTree W).




End Entries_of_a_round.

(** ** The command: run_query(bv) (lines 132-149)

    The stored settings of [QSettings("Weggli", "Weggli")] are a map from
    keys to values.  The user at the form is a function: shown the
    preselected choice and the default text, the user cancels ([None])
    or confirms with the index of a choice and a query text. *)
Module Command.

Record Settings : Type := {
  get_string : string -> string;
  get_bool : string -> bool
}.

Definition Form : Type := nat -> string -> option (nat * string).

Definition choices : list string := ["Report Tab"; "Log"].

(** [l.index(x)]: the first position of [x] in [l]; [None] where Python
    raises [ValueError]. *)
Fixpoint index (l : list string) (x : string) : option nat :=
  match l with
  | [] => None
  | y :: l' => if String.eqb y x then Some 0 else S <$> index l' x
  end.

(** The text the query field starts with (lines 134-137). *)
Definition default_text (qsettings : gmap string string) : string :=
  match qsettings !! "ui/querytext" with
  | Some text => text
  | None => ""
  end.

Inductive raised : Type :=
| ValueError
| IndexError
| FromQuery (e : exn).

Inductive ending : Type :=
| ReturnFalse
| ReturnNone
| Raise (e : raised).

(** An invocation: the stored settings it leaves, the events of the
    query it ran, and how it ended. *)
Record invocation : Type := {
  qsettings_after : gmap string string;
  events : list event;
  ended : ending
}.

Definition run_query (W : Weggli) (ui : UI) (settings : Settings)
    (get_form_input : Form) (bv : BinaryView)
    (qsettings : gmap string string) : invocation :=
  let text := default_text qsettings in
  match index choices (get_string settings "weggli.default_output") with
  | None =>
      {| qsettings_after := qsettings; events := []; ended := Raise ValueError |}
  | Some choice =>
      match get_form_input choice text with
      | None =>
          {| qsettings_after := qsettings; events := []; ended := ReturnFalse |}
      | Some (choice_result, query_result) =>
          let qsettings := <["ui/querytext" := query_result]> qsettings in
          match choices !! choice_result with
          | None =>
              {| qsettings_after := qsettings; events := [];
                 ended := Raise IndexError |}
          | Some output_format =>
              let w := {| bv := bv;
                          print_code := get_bool settings "weggli.show_code";
                          output_format := output_format |} in
              let run := run_query W ui w query_result in
              {| qsettings_after := qsettings;
                 events := trace run;
                 ended := match result run with
                          | Returned _ => ReturnNone
                          | Raised e => Raise (FromQuery e)
                          end |}
          end
      end
  end.

End Command.

(** ** Stored settings and users to invoke the command with *)
Module DemoCommand.

Definition settings : Command.Settings :=
  {| Command.get_string := fun key =>
       if String.eqb key "weggli.default_output" then "Report Tab" else "";
     Command.get_bool := fun key => String.eqb key "weggli.show_code" |}.

(** Picks [Log] and asks for [memcpy(_, _, _)]. *)
Definition types_query : Command.Form :=
  fun _ _ => Some (1, "memcpy(_, _, _)").

(** Confirms the form as it is shown. *)
Definition accepts : Command.Form :=
  fun choice text => Some (choice, text).

Definition stored : gmap string string :=
  <["ui/querytext" := "strlen(_)"]> (<["ui/geometry" := "800x600"]> ∅).

End DemoCommand.

(** * Properties *)

(** ** The run monad *)

Lemma trace_bind {A B} (m : M A) (k : A -> M B) a :
  result m = Returned a ->
  trace (bind m k) = trace m ++ trace (k a).
Proof.
  destruct m as [t [a'|e]]; simpl; [|discriminate].
  intros [= ->]. unfold bind. by destruct (k a).
Qed.

Lemma result_bind {A B} (m : M A) (k : A -> M B) a :
  result m = Returned a ->
  result (bind m k) = result (k a).
Proof.
  destruct m as [t [a'|e]]; simpl; [|discriminate].
  intros [= ->]. unfold bind. by destruct (k a).
Qed.

Lemma bind_returned {A B} (m : M A) (k : A -> M B) a :
  result m = Returned a ->
  bind m k = (trace m ++ trace (k a), result (k a)).
Proof.
  intros H. rewrite (surjective_pairing (bind m k)).
  f_equal; [by apply trace_bind | by apply result_bind].
Qed.

Lemma for_each_returns {A S} (body : A -> S -> M S) (step : A -> S -> S) :
  (forall x s, result (body x s) = Returned (step x s)) ->
  forall xs s,
    for_each xs body s = (loop_trace xs body step s, Returned (loop_state xs step s)).
Proof.
  intros Hbody xs. induction xs as [|x xs IH]; intros s; simpl; [done|].
  rewrite (bind_returned _ _ _ (Hbody x s)), IH. done.
Qed.

Lemma loop_trace_elem {A S} (body : A -> S -> M S) (step : A -> S -> S) xs s e :
  In e (loop_trace xs body step s) ->
  exists x s', In x xs /\ In e (trace (body x s')).
Proof.
  revert s. induction xs as [|x xs IH]; intros s; simpl; [done|].
  rewrite in_app_iff. intros [H|H].
  - exists x, s. auto.
  - destruct (IH _ H) as (x' & s' & Hx & He). exists x', s'. auto.
Qed.

Lemma loop_trace_round {A S} (body : A -> S -> M S) (step : A -> S -> S) xs s x :
  In x xs ->
  exists s', forall e, In e (trace (body x s')) -> In e (loop_trace xs body step s).
Proof.
  revert s. induction xs as [|y xs IH]; intros s; simpl; [done|].
  intros [->|Hx].
  - exists s. intros e He. apply in_app_iff. by left.
  - destruct (IH (step y s) Hx) as [s' Hs']. exists s'.
    intros e He. apply in_app_iff. right. by apply Hs'.
Qed.

(** ** Python strings *)

Lemma index_char_count (s : string) (c : ascii) :
  index 0 (String c EmptyString) s = None <-> PyStr.count s c = 0.
Proof.
  induction s as [|a s IH]; simpl; [done|].
  destruct (ascii_dec c a) as [->|Hne].
  - rewrite Ascii.eqb_refl. destruct s; simpl; split; intros; discriminate.
  - assert (Ascii.eqb a c = false) as -> by (apply Ascii.eqb_neq; congruence).
    simpl. destruct (index 0 (String c "") s) eqn:E.
    + split; [discriminate|]. intros H. apply IH in H. discriminate.
    + split; [|done]. intros _. by apply IH.
Qed.

Lemma find_char_neg (s : string) (c : ascii) :
  (PyStr.find s (String c EmptyString) <? 0)%Z = true <-> PyStr.count s c = 0.
Proof.
  rewrite <- index_char_count. unfold PyStr.find.
  destruct (index 0 (String c "") s) as [n|]; rewrite Z.ltb_lt; split;
    intros; try done; try lia.
Qed.

Lemma find_char_nonneg (s : string) (c : ascii) :
  (PyStr.find s (String c EmptyString) <? 0)%Z = false <-> 0 < PyStr.count s c.
Proof.
  pose proof (find_char_neg s c) as H.
  destruct (PyStr.find s (String c "") <? 0)%Z.
  - split; [done|]. intros Hc.
    assert (PyStr.count s c = 0) by (by apply H). lia.
  - split; [|done]. intros _. destruct (PyStr.count s c); [|lia].
    assert (false = true) by (by apply H). done.
Qed.

Lemma count_contains (s : string) (c : ascii) :
  0 < PyStr.count s c <-> PyStr.contains s c.
Proof.
  unfold PyStr.contains. induction s as [|a s IH]; simpl; [split; [lia|done]|].
  destruct (Ascii.eqb a c) eqn:E.
  - apply Ascii.eqb_eq in E. split; [auto|lia].
  - apply Ascii.eqb_neq in E. simpl. rewrite IH. split; [auto|].
    intros [?|?]; [done|auto].
Qed.

Lemma count_app (s1 s2 : string) (c : ascii) :
  PyStr.count (s1 +:+ s2) c = PyStr.count s1 c + PyStr.count s2 c.
Proof. induction s1 as [|a s1 IH]; simpl; [done|]. rewrite IH. lia. Qed.

(** ** Normalization *)

Lemma add_semicolon_spec (query : string) :
  add_semicolon query =
    if (PyStr.find query ";" <? 0)%Z
    then ([log_warn warn_semicolon], Returned (query +:+ ";"))
    else ([], Returned query).
Proof. unfold add_semicolon. by destruct (PyStr.find query ";" <? 0)%Z. Qed.

Lemma add_braces_spec (query : string) :
  add_braces query =
    if ((PyStr.find query "{" <? 0) || (PyStr.find query "}" <? 0))%Z
    then ([log_warn warn_braces], Returned ("{" +:+ query +:+ "}"))
    else ([], Returned query).
Proof.
  unfold add_braces.
  by destruct ((PyStr.find query "{" <? 0) || (PyStr.find query "}" <? 0))%Z.
Qed.

(** Normalization, written out. *)
Lemma normalize_spec (query : string) :
  let semi := (PyStr.find query ";" <? 0)%Z in
  let q := if semi then query +:+ ";" else query in
  let braces := ((PyStr.find q "{" <? 0) || (PyStr.find q "}" <? 0))%Z in
  normalize query =
    ((if semi then [log_warn warn_semicolon] else []) ++
     (if braces then [log_warn warn_braces] else []),
     Returned (if braces then "{" +:+ q +:+ "}" else q)).
Proof.
  unfold normalize, bind. rewrite add_semicolon_spec.
  destruct (PyStr.find query ";" <? 0)%Z; rewrite add_braces_spec;
    by destruct ((PyStr.find _ "{" <? 0) || (PyStr.find _ "}" <? 0))%Z.
Qed.

Lemma normalize_returns (query : string) :
  result (normalize query) = Returned (normalized query).
Proof. unfold normalized. by rewrite normalize_spec. Qed.

Lemma normalize_unchanged (query : string) :
  0 < PyStr.count query ";" ->
  0 < PyStr.count query "{" ->
  0 < PyStr.count query "}" ->
  normalize query = ([], Returned query).
Proof.
  intros Hs Ho Hc. apply find_char_nonneg in Hs, Ho, Hc.
  rewrite normalize_spec. simpl. rewrite Hs, Ho, Hc. done.
Qed.

(** What normalization returns holds all three characters. *)
Lemma normalized_counts (query : string) :
  0 < PyStr.count (normalized query) ";" /\
  0 < PyStr.count (normalized query) "{" /\
  0 < PyStr.count (normalized query) "}".
Proof.
  unfold normalized. rewrite normalize_spec. simpl.
  destruct (PyStr.find query ";" <? 0)%Z eqn:Es.
  - destruct ((PyStr.find _ "{" <? 0) || (PyStr.find _ "}" <? 0))%Z eqn:Eb.
    + rewrite !count_app. simpl. lia.
    + apply orb_false_iff in Eb as [Eo Ec].
      apply find_char_nonneg in Eo, Ec.
      rewrite !count_app in *. simpl in *. lia.
  - apply find_char_nonneg in Es.
    destruct ((PyStr.find _ "{" <? 0) || (PyStr.find _ "}" <? 0))%Z eqn:Eb.
    + rewrite !count_app. simpl. lia.
    + apply orb_false_iff in Eb as [Eo Ec].
      apply find_char_nonneg in Eo, Ec. lia.
Qed.

(** X4: normalizing twice is normalizing once: for every query, what
    normalization returns is returned unchanged, and without a warning,
    when normalized again. *)
Lemma normalize_idempotent (query : string) :
  normalize (normalized query) = ([], Returned (normalized query)).
Proof.
  destruct (normalized_counts query) as (Hs & Ho & Hc).
  by apply normalize_unchanged.
Qed.

(** C3: on [int $x = 1], which has neither a semicolon nor a brace,
    normalization returns [{int $x = 1;}] and emits exactly two warnings,
    the one for the semicolon and then the one for the braces. *)
Theorem normalize_int_x :
  PyStr.count "int $x = 1" ";" = 0 /\
  PyStr.count "int $x = 1" "{" = 0 /\
  PyStr.count "int $x = 1" "}" = 0 /\
  normalize "int $x = 1" =
    ([log_warn warn_semicolon; log_warn warn_braces], Returned "{int $x = 1;}") /\
  length (trace (normalize "int $x = 1")) = 2.
Proof. repeat split. Qed.

(** C4: a query that already holds a semicolon, an opening brace and a
    closing brace (as every query with a matching brace pair does) is
    returned as it is, and no warning is emitted. *)
Theorem normalize_well_formed (query : string) :
  PyStr.contains query ";" ->
  PyStr.contains query "{" ->
  PyStr.contains query "}" ->
  normalize query = ([], Returned query).
Proof.
  intros Hs Ho Hc. apply count_contains in Hs, Ho, Hc.
  by apply normalize_unchanged.
Qed.

Lemma normalize_well_formed_witness :
  PyStr.contains "{strcpy(_, $x);}" ";" /\
  normalize "{strcpy(_, $x);}" = ([], Returned "{strcpy(_, $x);}").
Proof.
  assert (H : forall c, 0 < PyStr.count "{strcpy(_, $x);}" c ->
                        PyStr.contains "{strcpy(_, $x);}" c)
    by (intros c; apply count_contains).
  split; [apply H; simpl; lia|].
  apply normalize_well_formed; apply H; simpl; lia.
Defined.

(** C10: the brace test looks for each brace character anywhere in the
    query and not for a pair.  A query that holds exactly one of the two
    characters is wrapped whole in a new pair, with the warning, and what
    is returned has different numbers of opening and closing braces. *)
Theorem normalize_one_brace (query : string) :
  (PyStr.contains query "{" /\ ~ PyStr.contains query "}") \/
  (~ PyStr.contains query "{" /\ PyStr.contains query "}") ->
  exists q,
    (q = query \/ q = query +:+ ";") /\
    result (normalize query) = Returned ("{" +:+ q +:+ "}") /\
    In (log_warn warn_braces) (trace (normalize query)) /\
    PyStr.count (normalized query) "{" <> PyStr.count (normalized query) "}".
Proof.
  intros H.
  assert (Hc : (0 < PyStr.count query "{" /\ PyStr.count query "}" = 0) \/
               (PyStr.count query "{" = 0 /\ 0 < PyStr.count query "}")).
  { rewrite <- !count_contains in H. lia. }
  clear H. unfold normalized. rewrite normalize_spec. simpl.
  set (q := if (PyStr.find query ";" <? 0)%Z then query +:+ ";" else query).
  assert (Hq : forall c, c <> ";"%char -> PyStr.count q c = PyStr.count query c).
  { intros c Hne. unfold q. destruct (PyStr.find query ";" <? 0)%Z; [|done].
    rewrite count_app. cbn [PyStr.count].
    destruct (Ascii.eqb_spec ";" c); [congruence|lia]. }
  assert (Hb : ((PyStr.find q "{" <? 0) || (PyStr.find q "}" <? 0))%Z = true).
  { apply orb_true_iff. destruct Hc as [[_ Hz]|[Hz _]]; [right|left];
      apply find_char_neg; rewrite Hq; done. }
  rewrite Hb. exists q. repeat split.
  - unfold q. destruct (PyStr.find query ";" <? 0)%Z; auto.
  - apply in_app_iff. right. by left.
  - rewrite !count_app. simpl. rewrite !Hq by done. lia.
Qed.

Lemma normalize_one_brace_witness :
  exists q,
    (q = "if (x) { f();" \/ q = "if (x) { f();" +:+ ";") /\
    result (normalize "if (x) { f();") = Returned ("{" +:+ q +:+ "}") /\
    In (log_warn warn_braces) (trace (normalize "if (x) { f();")) /\
    PyStr.count (normalized "if (x) { f();") "{"
      <> PyStr.count (normalized "if (x) { f();") "}".
Proof.
  apply normalize_one_brace. left. split.
  - apply count_contains. simpl. lia.
  - intros H. apply count_contains in H. simpl in H. lia.
Defined.

(** ** The generator of xrefs_to *)

Lemma advance_yields self sites :
  match advance self sites with
  | None => yields self (Running [] sites) = []
  | Some (g, gen) => yields self (Running [] sites) = g :: yields self gen
  end.
Proof.
  induction sites as [|xref sites IH]; simpl; [done|].
  destruct (get_functions_containing (bv self) (address xref)); simpl; [|done].
  exact IH.
Qed.

Lemma next_yields self gen :
  match next self gen with
  | None => yields self gen = []
  | Some (g, gen') => yields self gen = g :: yields self gen'
  end.
Proof.
  destruct gen as [f|[|g pending] sites]; simpl; [| |done].
  - exact (advance_yields self (get_callers (bv self) (start f))).
  - exact (advance_yields self sites).
Qed.

Lemma exhaust_spec self gen :
  fst (exhaust self gen) = yields self gen /\
  next self (snd (exhaust self gen)) = None.
Proof.
  funelim (exhaust self gen); simpl; clear Heqcall;
    pose proof (next_yields self gen) as Hy.
  - match goal with E : next self gen = Some _ |- _ => rewrite E in Hy end.
    match goal with IH : _ /\ _ |- _ => destruct IH as [-> ->] end.
    done.
  - match goal with E : next self gen = None |- _ => rewrite E in Hy; done end.
Qed.

Lemma drain_yields self gen : drain self gen = yields self gen.
Proof. apply exhaust_spec. Qed.

Lemma elem_of_callers self f g :
  g ∈ callers self f <->
  exists xref,
    In xref (get_callers (bv self) (start f)) /\
    In g (get_functions_containing (bv self) (address xref)).
Proof.
  unfold callers. rewrite elem_of_list_to_set, drain_yields, list_elem_of_In.
  simpl. rewrite in_flat_map. done.
Qed.

Lemma callers_set_spec self f :
  callers_set self f = ([called_get_callers (start f)], Returned (callers self f)).
Proof. done. Qed.

(** C5: the functions that [xrefs_to f] yields are exactly those the
    host reports around the address of some call site of [f], every one
    of them for every call site; a second call gives an equal set, asking
    the host again, while the object of the first call, once iterated,
    yields nothing more. *)
Theorem xrefs_to_exact (self : WeggliPlugin) (f : Function) :
  (forall g,
     g ∈ callers self f <->
     exists xref,
       In xref (get_callers (bv self) (start f)) /\
       In g (get_functions_containing (bv self) (address xref))) /\
  drain self (xrefs_to self f) =
    flat_map (fun xref => get_functions_containing (bv self) (address xref))
      (get_callers (bv self) (start f)) /\
  next self (snd (exhaust self (xrefs_to self f))) = None /\
  (s1 <- callers_set self f ;; s2 <- callers_set self f ;; ret (s1, s2)) =
    ([called_get_callers (start f); called_get_callers (start f)],
     Returned (callers self f, callers self f)).
Proof.
  split; [intros g; apply elem_of_callers|].
  split; [apply drain_yields|].
  split; [apply exhaust_spec|done].
Qed.

(** ** The search-space reduction *)

Lemma loop_state_app {A S} (step : A -> S -> S) xs ys s :
  loop_state (xs ++ ys) step s = loop_state ys step (loop_state xs step s).
Proof. revert s. induction xs as [|x xs IH]; intros s; simpl; [done|apply IH]. Qed.

Lemma intersection_update_spec self f work :
  intersection_update self f work =
    ([called_get_callers (start f)], Returned (intersect_callers self f work)).
Proof. done. Qed.

Lemma reduce_spec self f0 rest :
  reduce self f0 rest =
    (called_get_callers (start f0) ::
       loop_trace rest (intersection_update self) (intersect_callers self)
         (callers self f0),
     Returned (loop_state rest (intersect_callers self) (callers self f0))).
Proof.
  unfold reduce.
  rewrite (bind_returned _ _ (callers self f0)) by done.
  rewrite (for_each_returns _ (intersect_callers self)) by done.
  done.
Qed.

Lemma loop_state_subseteq self rest work :
  loop_state rest (intersect_callers self) work ⊆ work.
Proof.
  revert work. induction rest as [|f rest IH]; intros work; simpl; [done|].
  etrans; [apply IH|]. apply intersection_subseteq_l.
Qed.

Lemma reduce_calls self f0 rest :
  trace (reduce self f0 rest) = map (fun f => called_get_callers (start f)) (f0 :: rest).
Proof.
  rewrite reduce_spec. simpl. f_equal.
  generalize (callers self f0). induction rest as [|f rest IH]; intros w; simpl; [done|].
  by rewrite IH.
Qed.

(** C1: the working set is seeded with the callers of the first anchor,
    the working set after one more anchor is a subset of the one before,
    for every prefix of the anchors, and so the reduced set is a subset of
    the callers of the first anchor alone. *)
Theorem reduce_shrinks (self : WeggliPlugin) (f0 : Function) (rest : list Function) :
  result (reduce self f0 []) = Returned (callers self f0) /\
  (forall i, exists w w',
     result (reduce self f0 (take i rest)) = Returned w /\
     result (reduce self f0 (take (S i) rest)) = Returned w' /\
     w' ⊆ w) /\
  (exists w, result (reduce self f0 rest) = Returned w /\ w ⊆ callers self f0).
Proof.
  split; [done|]. split.
  - intros i. rewrite !reduce_spec. simpl. eexists _, _.
    split; [done|]. split; [done|].
    destruct (rest !! i) as [f|] eqn:E.
    + rewrite (take_S_r _ _ _ E), loop_state_app. simpl.
      apply intersection_subseteq_l.
    + apply lookup_ge_None in E.
      rewrite !take_ge by lia. done.
  - rewrite reduce_spec. simpl. eexists. split; [done|].
    apply loop_state_subseteq.
Qed.

(** ** The loop over the working set *)

Lemma decompile_string self func :
  decompile self func = PyString (rendered self func).
Proof. done. Qed.

Section Rounds.

Context (W : Weggli) (ui : UI) (self : WeggliPlugin).

Lemma show_result_spec code r report :
  show_result W ui self code r report =
    (if String.eqb (output_format self) Log
     then [log_info (display W r code false)] else [],
     Returned (show_result_report W ui self code r report)).
Proof.
  unfold show_result, show_result_report, bind, emit, ret.
  by destruct (String.eqb (output_format self) Log).
Qed.

Lemma show_results_spec code results report :
  for_each results (show_result W ui self code) report =
    (loop_trace results (show_result W ui self code)
       (show_result_report W ui self code) report,
     Returned (loop_state results (show_result_report W ui self code) report)).
Proof.
  apply for_each_returns. intros r s. by rewrite show_result_spec.
Qed.

Lemma show_results_trace code results report e :
  In e (loop_trace results (show_result W ui self code)
          (show_result_report W ui self code) report) ->
  exists msg, e = log_info msg.
Proof.
  intros H. apply loop_trace_elem in H as (r & s & _ & He).
  rewrite show_result_spec in He. simpl in He.
  destruct (String.eqb (output_format self) Log); simpl in He; [|done].
  destruct He as [<-|[]]. eauto.
Qed.

(** The events of the round of one function of the working set. *)
Lemma search_target_spec qt target report :
  let code := rendered self target in
  let results := matches W qt code in
  let n := length results in
  let report' :=
    if String.eqb (output_format self) ReportTab
    then report +:+ result_div n target else report in
  search_target W ui self qt target report =
    (if negb (truth target) then []
     else called_matches code ::
       if (0 <? n)%nat then
         (if String.eqb (output_format self) Log
          then [log_info (match_line n target)] else []) ++
         (if print_code self
          then loop_trace results (show_result W ui self code)
                 (show_result_report W ui self code) report'
          else [])
       else [],
     Returned (search_target_report W ui self qt target report)).
Proof.
  cbv zeta. unfold search_target, search_target_report.
  rewrite decompile_string.
  destruct (truth target); cbn [negb]; [|done].
  destruct (0 <? _)%nat; [|done].
  unfold bind, emit, ret.
  destruct (print_code self).
  - rewrite show_results_spec.
    by destruct (String.eqb (output_format self) Log).
  - by destruct (String.eqb (output_format self) Log).
Qed.

Lemma search_target_returns qt target report :
  result (search_target W ui self qt target report) =
    Returned (search_target_report W ui self qt target report).
Proof. by rewrite search_target_spec. Qed.

Lemma search_target_no_error qt target report e :
  In e (trace (search_target W ui self qt target report)) ->
  is_log_error e = false.
Proof.
  rewrite search_target_spec. simpl.
  destruct (truth target); simpl; [|done].
  intros [<-|H]; [done|].
  destruct (0 <? _)%nat; [|done].
  apply in_app_iff in H as [H|H].
  - destruct (String.eqb (output_format self) Log); [|done].
    by destruct H as [<-|[]].
  - destruct (print_code self); [|done].
    apply show_results_trace in H as [msg ->]. done.
Qed.

End Rounds.

(** ** The whole run *)

Section Runs.

Context (W : Weggli) (ui : UI) (self : WeggliPlugin).

Lemma search_spec qt referenced_funcs report :
  search W ui self qt referenced_funcs report =
    match referenced_funcs with
    | [] => ([], Returned report)
    | f0 :: rest =>
        let work := reduced self f0 rest in
        let report' :=
          if String.eqb (output_format self) ReportTab
          then report +:+ "<p>" +:+ searching (size work) +:+ "</p>"
          else report in
        (trace (reduce self f0 rest) ++
           log_info (searching (size work)) ::
           loop_trace (elements work) (search_target W ui self qt)
             (search_target_report W ui self qt) report',
         Returned (loop_state (elements work)
                     (search_target_report W ui self qt) report'))
    end.
Proof.
  destruct referenced_funcs as [|f0 rest]; [done|]. cbv zeta.
  unfold search.
  rewrite (bind_returned _ _ (reduced self f0 rest))
    by (by rewrite reduce_spec).
  rewrite (bind_returned (emit _) _ tt) by done.
  rewrite (for_each_returns _ (search_target_report W ui self qt))
    by (intros; apply search_target_returns).
  done.
Qed.

Lemma search_returns qt referenced_funcs report :
  result (search W ui self qt referenced_funcs report) =
    Returned (search_report W ui self qt referenced_funcs report).
Proof.
  unfold search_report. rewrite search_spec.
  by destruct referenced_funcs.
Qed.

(** A run raises where the parser does, after the warnings, and
    otherwise returns: warnings, the search, then the report if asked. *)
Lemma run_query_spec query :
  run_query W ui self query =
    match parse_query W (normalized query) with
    | None => (trace (normalize query), Raised ParseError)
    | Some qt =>
        let funcs := resolve self (identifiers W qt) in
        let report := initial_report ui self (normalized query) in
        (trace (normalize query) ++
           trace (search W ui self qt funcs report) ++
           (if String.eqb (output_format self) ReportTab
            then [show_html_report "Weggli Results"
                    (search_report W ui self qt funcs report +:+ report_tail)]
            else []),
         Returned tt)
    end.
Proof.
  unfold run_query.
  rewrite (bind_returned _ _ _ (normalize_returns query)).
  destruct (parse_query W (normalized query)) as [qt|]; cbv zeta.
  - rewrite (bind_returned (ret qt) _ qt) by done.
    fold (initial_report ui self (normalized query)).
    rewrite (bind_returned _ _ _ (search_returns _ _ _)).
    simpl. by destruct (String.eqb (output_format self) ReportTab).
  - simpl. by rewrite app_nil_r.
Qed.

Lemma normalize_warns query e :
  In e (trace (normalize query)) -> exists msg, e = log_warn msg.
Proof.
  rewrite normalize_spec. simpl. rewrite in_app_iff.
  intros [H|H].
  - destruct (PyStr.find query ";" <? 0)%Z; [|done].
    destruct H as [<-|[]]. eauto.
  - destruct (_ || _)%Z; [|done].
    destruct H as [<-|[]]. eauto.
Qed.

Lemma resolve_nil ids :
  (forall i, In i ids -> get_function self i = None) ->
  resolve self ids = [].
Proof.
  intros H. unfold resolve. induction ids as [|i ids IH]; simpl; [done|].
  rewrite (H i) by (by left). apply IH. intros j Hj. apply H. by right.
Qed.

Lemma filter_nil_of_all {A} (p : A -> bool) (l : list A) :
  (forall x, In x l -> p x = false) -> List.filter p l = [].
Proof.
  induction l as [|x l IH]; simpl; [done|]. intros H.
  rewrite (H x) by (by left). apply IH. intros y Hy. apply H. by right.
Qed.

(** C6: when no identifier of the parsed query names a known function,
    the run returns; it emits the normalization warnings and, in Report
    Tab mode, shows the report made of the head and the tail alone,
    and nothing else: no call of the host's caller lookup or of the
    matcher is made. *)
Theorem run_query_no_anchor (query : string) (qt : QueryTree W) :
  parse_query W (normalized query) = Some qt ->
  (forall i, In i (identifiers W qt) -> get_function self i = None) ->
  run_query W ui self query =
    (trace (normalize query) ++
       (if String.eqb (output_format self) ReportTab
        then [show_html_report "Weggli Results"
                (report_head ui (normalized query) +:+ report_tail)]
        else []),
     Returned tt) /\
  List.filter is_call (trace (run_query W ui self query)) = [].
Proof.
  intros Hparse Hnone. apply resolve_nil in Hnone.
  assert (Hrun : run_query W ui self query =
    (trace (normalize query) ++
       (if String.eqb (output_format self) ReportTab
        then [show_html_report "Weggli Results"
                (report_head ui (normalized query) +:+ report_tail)]
        else []),
     Returned tt)).
  { rewrite run_query_spec, Hparse. cbv zeta.
    unfold search_report, initial_report. rewrite Hnone. simpl.
    by destruct (String.eqb (output_format self) ReportTab). }
  split; [exact Hrun|]. rewrite Hrun. simpl.
  apply filter_nil_of_all. intros e He. apply in_app_iff in He as [He|He].
  - apply normalize_warns in He as [msg ->]. done.
  - destruct (String.eqb (output_format self) ReportTab); [|done].
    by destruct He as [<-|[]].
Qed.

(** C8: [decompile] returns a string for every function, never [None];
    no run logs an error, so the branch that reports a failed
    decompilation is never taken; and the round of a function passes
    the rendered text, empty or not, to the matcher first thing. *)
Theorem decompile_never_none :
  (forall func, ne_None (decompile self func) = true) /\
  (forall func, exists code, decompile self func = PyString code) /\
  (forall query, List.filter is_log_error (trace (run_query W ui self query)) = []) /\
  (forall qt target report,
     hd_error (trace (search_target W ui self qt target report)) =
       if truth target then Some (called_matches (rendered self target))
       else None).
Proof.
  split; [done|]. split; [intros func; by eexists|]. split.
  - intros query. apply filter_nil_of_all. intros e.
    rewrite run_query_spec.
    destruct (parse_query W (normalized query)) as [qt|]; simpl.
    + rewrite !in_app_iff. intros [H|[H|H]].
      * apply normalize_warns in H as [msg ->]. done.
      * rewrite search_spec in H.
        destruct (resolve self (identifiers W qt)) as [|f0 rest]; [done|].
        simpl in H. apply in_app_iff in H as [H|[<-|H]]; [|done|].
        -- rewrite reduce_calls in H. apply in_map_iff in H as (f & <- & _).
           done.
        -- apply loop_trace_elem in H as (t & r & _ & H).
           by apply search_target_no_error in H.
      * destruct (String.eqb (output_format self) ReportTab); [|done].
        by destruct H as [<-|[]].
    + intros H. apply normalize_warns in H as [msg ->]. done.
  - intros qt target report. rewrite search_target_spec. simpl.
    by destruct (truth target).
Qed.

End Runs.

(** ** Report entries *)

Lemma append_length (s1 s2 : string) :
  String.length (s1 +:+ s2) = String.length s1 + String.length s2.
Proof. induction s1 as [|a s1 IH]; simpl; [done|]. by rewrite IH. Qed.

Lemma append_assoc (s1 s2 s3 : string) :
  (s1 +:+ s2) +:+ s3 = s1 +:+ s2 +:+ s3.
Proof.
  induction s1 as [|a s1 IH]; [done|].
  change (String a ((s1 +:+ s2) +:+ s3) = String a (s1 +:+ s2 +:+ s3)).
  by rewrite IH.
Qed.

Lemma append_nil_r (s : string) : s +:+ "" = s.
Proof.
  induction s as [|a s IH]; [done|].
  change (String a (s +:+ "") = String a s). by rewrite IH.
Qed.

Lemma result_div_length n target : 0 < String.length (result_div n target).
Proof. unfold result_div. simpl. lia. Qed.

Section Entries.

Context (W : Weggli) (ui : UI) (self : WeggliPlugin).

(** The spans of a function only ever add to the report. *)
Lemma show_results_extend code results report :
  exists more,
    loop_state results (show_result_report W ui self code) report =
      report +:+ more.
Proof.
  revert report. induction results as [|r results IH]; intros report; simpl.
  - exists "". by rewrite append_nil_r.
  - destruct (IH (show_result_report W ui self code r report)) as [more ->].
    unfold show_result_report.
    destruct (String.eqb (output_format self) ReportTab).
    + eexists. by rewrite append_assoc.
    + by eexists.
Qed.

Lemma search_target_matches qt target report :
  truth target = true ->
  0 < length (matches W qt (rendered self target)) ->
  let n := length (matches W qt (rendered self target)) in
  let round := search_target W ui self qt target report in
  (output_format self = Log ->
   In (log_info (match_line n target)) (trace round) /\
   hd_error (List.filter is_output (trace round)) =
     Some (log_info (match_line n target))) /\
  (output_format self = ReportTab ->
   exists more,
     result round = Returned (report +:+ result_div n target +:+ more)).
Proof.
  intros Htruth Hn. cbv zeta.
  assert (Hpos : (0 <? length (matches W qt (rendered self target)))%nat = true)
    by (by apply Nat.ltb_lt).
  split.
  - intros Hlog. rewrite search_target_spec. simpl.
    rewrite Htruth, Hpos, Hlog. simpl. auto.
  - intros Hrep. rewrite search_target_returns.
    unfold search_target_report. rewrite Htruth, Hpos, Hrep. simpl.
    destruct (print_code self).
    + destruct (show_results_extend (rendered self target)
        (matches W qt (rendered self target))
        (report +:+ result_div (length (matches W qt (rendered self target))) target))
        as [more ->].
      exists more. by rewrite append_assoc.
    + exists "". by rewrite append_nil_r.
Qed.

Lemma search_target_no_match qt target report :
  length (matches W qt (rendered self target)) = 0 ->
  silent report (search_target W ui self qt target report).
Proof.
  intros Hn. unfold silent. rewrite search_target_spec.
  unfold search_target_report. simpl. rewrite Hn. simpl.
  by destruct (truth target).
Qed.

(** C7: in Log mode, a function of the working set that is searched
    and has N > 0 matches gets the log line
    [N matches in <full name> @ <start address in hex>]: it is in the
    log of the run, which returns, and it is the first thing the
    function's round shows. *)
Theorem log_match_line (query : string) (qt : QueryTree W)
    (f0 : Function) (rest : list Function) (target : Function) :
  output_format self = Log ->
  parse_query W (normalized query) = Some qt ->
  resolve self (identifiers W qt) = f0 :: rest ->
  target ∈ reduced self f0 rest ->
  truth target = true ->
  0 < length (matches W qt (rendered self target)) ->
  let n := length (matches W qt (rendered self target)) in
  let line :=
    PyStr.str n +:+ " matches in " +:+ full_name target +:+ " @ "
      +:+ PyStr.hex (start target) in
  In (log_info line) (trace (run_query W ui self query)) /\
  result (run_query W ui self query) = Returned tt /\
  (forall report,
     hd_error (List.filter is_output
                 (trace (search_target W ui self qt target report))) =
       Some (log_info line)).
Proof.
  intros Hlog Hparse Hres Hin Htruth Hn. cbv zeta.
  fold (match_line (length (matches W qt (rendered self target))) target).
  split; [|split].
  - rewrite run_query_spec, Hparse. cbv zeta. simpl.
    apply in_app_iff. right. apply in_app_iff. left.
    rewrite Hres, search_spec. cbv zeta. simpl.
    apply in_app_iff. right. right.
    apply elem_of_elements, list_elem_of_In in Hin.
    destruct (loop_trace_round (search_target W ui self qt)
                (search_target_report W ui self qt) _
                (if String.eqb (output_format self) ReportTab
                 then "" +:+ "<p>" +:+ searching (size (reduced self f0 rest)) +:+ "</p>"
                 else "")
                _ Hin) as [s' Hs'].
    unfold initial_report. rewrite Hlog. simpl. rewrite Hlog in Hs'.
    apply Hs'.
    by apply (search_target_matches qt target s' Htruth Hn).
  - rewrite run_query_spec, Hparse. done.
  - intros report.
    by apply (search_target_matches qt target report Htruth Hn).
Qed.

(** C9: in Log and in Report Tab mode, the round of a searched function
    emits its match line or result entry exactly when the matcher gives
    at least one match for its rendered text; with no match the round
    shows nothing and leaves the report as it was. *)
Theorem entry_iff_matches (qt : QueryTree W) (target : Function) (report : string) :
  output_format self = Log \/ output_format self = ReportTab ->
  truth target = true ->
  let n := length (matches W qt (rendered self target)) in
  let round := search_target W ui self qt target report in
  (emits_entry self n target report round <-> 0 < n) /\
  (n = 0 -> silent report round).
Proof.
  intros Hfmt Htruth. cbv zeta.
  split; [|apply search_target_no_match].
  split.
  - intros Hemit.
    destruct (length (matches W qt (rendered self target))) eqn:En; [|lia].
    destruct (search_target_no_match qt target report En) as [Hquiet Hsame].
    destruct Hemit as [[_ Hline]|[_ [more Hmore]]].
    + assert (In (log_info (match_line 0 target))
                (List.filter is_output
                   (trace (search_target W ui self qt target report))))
        by (by apply filter_In).
      rewrite Hquiet in *. done.
    + rewrite Hsame in Hmore. injection Hmore as Hmore.
      apply (f_equal String.length) in Hmore.
      rewrite !append_length in Hmore.
      pose proof (result_div_length 0 target). lia.
  - intros Hn.
    destruct (search_target_matches qt target report Htruth Hn) as [Hl Hr].
    destruct Hfmt as [Hfmt|Hfmt]; [left|right]; split; auto.
    by apply Hl.
Qed.

End Entries.

(** ** Runs on the small binary *)

Lemma run_query_no_anchor_witness :
  parse_query Demo.weggli (normalized "int $x = 1") = Some "{int $x = 1;}" /\
  run_query Demo.weggli Demo.ui (Demo.plugin ReportTab) "int $x = 1" =
    ([log_warn warn_semicolon; log_warn warn_braces;
      show_html_report "Weggli Results"
        (report_head Demo.ui "{int $x = 1;}" +:+ report_tail)],
     Returned tt).
Proof.
  split; [reflexivity|].
  refine (proj1 (run_query_no_anchor Demo.weggli Demo.ui (Demo.plugin ReportTab)
                   "int $x = 1" "{int $x = 1;}" eq_refl _)).
  intros i Hi. vm_compute in Hi.
  destruct Hi as [<-|[<-|[]]]; reflexivity.
Defined.

Lemma log_match_line_witness :
  Demo.parse_header ∈ reduced (Demo.plugin Log) Demo.memcpy [Demo.strlen] /\
  In (log_info "1 matches in demo::parse_header @ 0x2000")
     (trace (run_query Demo.weggli Demo.ui (Demo.plugin Log)
               "memcpy(_, _, strlen(_))")).
Proof.
  assert (Hin : Demo.parse_header ∈
                reduced (Demo.plugin Log) Demo.memcpy [Demo.strlen]).
  { apply elem_of_elements, list_elem_of_In. vm_compute. by left. }
  assert (Hn : 0 < length (matches Demo.weggli "{memcpy(_, _, strlen(_));}"
                             (rendered (Demo.plugin Log) Demo.parse_header))).
  { vm_compute. lia. }
  split; [exact Hin|].
  exact (proj1 (log_match_line Demo.weggli Demo.ui (Demo.plugin Log)
                  "memcpy(_, _, strlen(_))" "{memcpy(_, _, strlen(_));}"
                  Demo.memcpy [Demo.strlen] Demo.parse_header
                  eq_refl eq_refl eq_refl Hin eq_refl Hn)).
Defined.

Lemma entry_iff_matches_witness :
  truth Demo.copy_block = true /\
  (emits_entry (Demo.plugin ReportTab)
     (length (matches Demo.weggli "{memcpy(_, _, _);}"
                (rendered (Demo.plugin ReportTab) Demo.copy_block)))
     Demo.copy_block "<body>"
     (search_target Demo.weggli Demo.ui (Demo.plugin ReportTab)
        "{memcpy(_, _, _);}" Demo.copy_block "<body>") <->
   0 < length (matches Demo.weggli "{memcpy(_, _, _);}"
                 (rendered (Demo.plugin ReportTab) Demo.copy_block))).
Proof.
  split; [reflexivity|].
  exact (proj1 (entry_iff_matches Demo.weggli Demo.ui (Demo.plugin ReportTab)
                  "{memcpy(_, _, _);}" Demo.copy_block "<body>"
                  (or_intror eq_refl) eq_refl)).
Defined.

(** C2, on the code: [empty_fn] renders to the empty string.  The run
    that searches it logs no error for it and does not skip it: the empty
    text goes to the matcher.  The loop's error branch, which would log
    and skip, waits for a [None] that [decompile] never returns. *)
Theorem empty_rendering_is_searched :
  rendered (Demo.plugin Log) Demo.empty_fn = "" /\
  run_query Demo.weggli Demo.ui (Demo.plugin Log) "{free(_);}" =
    ([called_get_callers 4160;
      log_info "Searching through 1 functions..";
      called_matches ""],
     Returned tt) /\
  List.filter is_log_error
    (trace (run_query Demo.weggli Demo.ui (Demo.plugin Log) "{free(_);}")) = [].
Proof. repeat split; vm_compute; reflexivity. Qed.


(** * Further properties of the code *)

(** ** get_function and the anchors *)

Lemma find_first {A} (p : A -> bool) (l : list A) (x : A) :
  List.find p l = Some x ->
  exists before after,
    l = before ++ x :: after /\ p x = true /\
    forall y, In y before -> p y = false.
Proof.
  induction l as [|a l IH]; simpl; [discriminate|].
  destruct (p a) eqn:E.
  - intros [= <-]. exists [], l. repeat split; [done|]. intros y [].
  - intros H. destruct (IH H) as (before & after & -> & Hx & Hb).
    exists (a :: before), after. repeat split; auto.
    intros y [<-|Hy]; auto.
Qed.

(** X1: [get_function] finds no function exactly when no function of the
    binary has the name. *)
Theorem get_function_none_iff (self : WeggliPlugin) (n : string) :
  get_function self n = None <->
  forall f, In f (functions (bv self)) -> name f <> n.
Proof.
  unfold get_function. split.
  - intros H f Hf Hn.
    pose proof (find_none _ _ H f Hf) as E. simpl in E.
    apply String.eqb_neq in E. done.
  - intros H. destruct (List.find _ _) as [f|] eqn:E; [|done].
    apply find_some in E as [Hf Hn]. apply String.eqb_eq in Hn.
    by destruct (H f Hf).
Qed.

(** X2: the function [get_function] returns has the name asked for and
    is the first of the binary's functions that has it: every function
    listed before it has another name. *)
Theorem get_function_first (self : WeggliPlugin) (n : string) (f : Function) :
  get_function self n = Some f ->
  exists before after,
    functions (bv self) = before ++ f :: after /\
    name f = n /\
    forall g, In g before -> name g <> n.
Proof.
  intros H. apply find_first in H as (before & after & Hl & Hn & Hb).
  exists before, after. split; [done|]. split; [by apply String.eqb_eq|].
  intros g Hg. apply String.eqb_neq. by apply Hb.
Qed.

Lemma get_function_first_witness :
  get_function (Demo.plugin Log) "strlen" = Some Demo.strlen /\
  exists before after,
    functions Demo.view = before ++ Demo.strlen :: after /\
    name Demo.strlen = "strlen" /\
    forall g, In g before -> name g <> "strlen".
Proof.
  split; [reflexivity|].
  exact (get_function_first (Demo.plugin Log) "strlen" Demo.strlen eq_refl).
Defined.

Lemma In_resolve (self : WeggliPlugin) (ids : list string) (f : Function) :
  In f (resolve self ids) <->
  exists i, In i ids /\ get_function self i = Some f.
Proof.
  unfold resolve. rewrite <- list_elem_of_In, list_elem_of_omap.
  split; intros (i & Hi & Hf); exists i; split; auto;
    by apply list_elem_of_In.
Qed.

Lemma resolve_app (self : WeggliPlugin) (ids1 ids2 : list string) :
  resolve self (ids1 ++ ids2) = resolve self ids1 ++ resolve self ids2.
Proof. unfold resolve. apply omap_app. Qed.

(** X3: the anchors are the identifiers' functions, in the identifiers'
    order, the identifiers that name no function left out: an anchor is a
    function of the binary whose name is one of the identifiers, resolving
    goes through concatenation, and an identifier that names no function
    adds nothing. *)
Theorem resolve_anchors (self : WeggliPlugin) (ids1 ids2 : list string) (i : string) :
  (forall f, In f (resolve self (ids1 ++ i :: ids2)) ->
             In f (functions (bv self)) /\ In (name f) (ids1 ++ i :: ids2)) /\
  resolve self (ids1 ++ i :: ids2) =
    resolve self ids1 ++
    match get_function self i with Some f => [f] | None => [] end ++
    resolve self ids2.
Proof.
  split.
  - intros f Hf. apply In_resolve in Hf as (j & Hj & Hf).
    unfold get_function in Hf. apply find_some in Hf as [Hin Hn].
    apply String.eqb_eq in Hn. by subst j.
  - rewrite resolve_app. f_equal. unfold resolve. simpl.
    by destruct (get_function self i).
Qed.

(** ** Normalization, further *)

(** X5: a query that has its braces but no semicolon gets the semicolon
    behind its last character, so behind the closing brace, and only the
    semicolon warning. *)
Theorem normalize_semicolon_after_brace (query : string) :
  PyStr.contains query "{" ->
  PyStr.contains query "}" ->
  ~ PyStr.contains query ";" ->
  normalize query = ([log_warn warn_semicolon], Returned (query +:+ ";")).
Proof.
  intros Ho Hc Hs.
  apply count_contains in Ho, Hc.
  assert (Hz : PyStr.count query ";" = 0).
  { destruct (PyStr.count query ";") eqn:E; [done|].
    destruct Hs. apply count_contains. lia. }
  apply find_char_neg in Hz.
  assert (Ho' : 0 < PyStr.count (query +:+ ";") "{")
    by (rewrite count_app; lia).
  assert (Hc' : 0 < PyStr.count (query +:+ ";") "}")
    by (rewrite count_app; lia).
  apply find_char_nonneg in Ho', Hc'.
  rewrite normalize_spec. cbv zeta. rewrite Hz, Ho', Hc'. done.
Qed.

Lemma normalize_semicolon_after_brace_witness :
  PyStr.contains "{strcpy(_, $x)}" "}" /\
  normalize "{strcpy(_, $x)}" =
    ([log_warn warn_semicolon], Returned "{strcpy(_, $x)};").
Proof.
  assert (H : forall c, 0 < PyStr.count "{strcpy(_, $x)}" c ->
                        PyStr.contains "{strcpy(_, $x)}" c)
    by (intros c; apply count_contains).
  split; [apply H; simpl; lia|].
  apply normalize_semicolon_after_brace; try (apply H; simpl; lia).
  intros Hs. apply count_contains in Hs. simpl in Hs. lia.
Defined.

(** X6: normalization only adds to the query: what it returns is the
    query as given with nothing in front or an opening brace, and behind
    it nothing, a semicolon, a closing brace or both; one warning is
    emitted for the semicolon and one for the brace pair, in this order. *)
Theorem normalize_only_adds (query : string) :
  exists pre post warnings,
    normalize query = (warnings, Returned (pre +:+ query +:+ post)) /\
    ((pre = "" /\ post = "" /\ warnings = []) \/
     (pre = "" /\ post = ";" /\ warnings = [log_warn warn_semicolon]) \/
     (pre = "{" /\ post = "}" /\ warnings = [log_warn warn_braces]) \/
     (pre = "{" /\ post = ";}" /\
      warnings = [log_warn warn_semicolon; log_warn warn_braces])).
Proof.
  rewrite normalize_spec. cbv zeta.
  destruct (PyStr.find query ";" <? 0)%Z;
    destruct ((PyStr.find _ "{" <? 0) || (PyStr.find _ "}" <? 0))%Z.
  - exists "{", ";}", [log_warn warn_semicolon; log_warn warn_braces].
    split; [|auto 6]. by rewrite append_assoc.
  - exists "", ";", [log_warn warn_semicolon]. split; [done|auto].
  - exists "{", "}", [log_warn warn_braces]. split; [done|auto 6].
  - exists "", "", []. split; [|auto]. by rewrite append_nil_r.
Qed.

(** ** decompile, further *)

Lemma join_app (sep : string) (a b : list string) :
  PyStr.join sep (a ++ b) =
    match a, b with
    | [], _ => PyStr.join sep b
    | _, [] => PyStr.join sep a
    | _, _ => PyStr.join sep a +:+ sep +:+ PyStr.join sep b
    end.
Proof.
  induction a as [|x a IH]; [done|].
  destruct b as [|y b]; [by rewrite app_nil_r|].
  destruct a as [|x' a]; [done|].
  change (x +:+ sep +:+ PyStr.join sep ((x' :: a) ++ y :: b) =
          (x +:+ sep +:+ PyStr.join sep (x' :: a)) +:+ sep +:+
          PyStr.join sep (y :: b)).
  rewrite IH, !append_assoc. done.
Qed.

Lemma join_empty_sep (parts : list string) :
  PyStr.join "" parts = joined parts.
Proof.
  induction parts as [|x parts IH]; [done|].
  destruct parts as [|y parts]; [by rewrite (append_nil_r x : joined [x] = x)|].
  change (x +:+ "" +:+ PyStr.join "" (y :: parts) = x +:+ joined (y :: parts)).
  by rewrite IH.
Qed.

Lemma joined_app (a b : list string) : joined (a ++ b) = joined a +:+ joined b.
Proof.
  induction a as [|x a IH]; [done|].
  change (x +:+ joined (a ++ b) = (x +:+ joined a) +:+ joined b).
  by rewrite IH, append_assoc.
Qed.

(** X7: the rendered text is the text of the lines before the
    function's highest address, then that of the lines from it on, with
    one line feed between two lines; a side that has no line adds no line
    feed, and with no line at all the text is empty. *)
Theorem rendered_windows (self : WeggliPlugin) (func : Function) :
  let before := map line_text
    (get_previous_linear_disassembly_lines (bv self) (highest_address func)) in
  let after := map line_text
    (get_next_linear_disassembly_lines (bv self) (highest_address func)) in
  rendered self func =
    match before, after with
    | [], _ => PyStr.join PyStr.nl after
    | _, [] => PyStr.join PyStr.nl before
    | _, _ => PyStr.join PyStr.nl before +:+ PyStr.nl +:+ PyStr.join PyStr.nl after
    end.
Proof.
  cbv zeta. unfold rendered, decompile. cbv zeta.
  rewrite map_app. apply join_app.
Qed.

(** X8: the text of a line is its tokens' strings one behind the
    other, in order, where a tag token gives nothing, whatever its string. *)
Theorem line_text_tokens (before after : list InstructionTextToken)
    (token : InstructionTextToken) :
  line_text {| tokens := before ++ token :: after |} =
    line_text {| tokens := before |} +:+
    (if is_TagToken (token_type token) then "" else token_str token) +:+
    line_text {| tokens := after |}.
Proof.
  unfold line_text. simpl. rewrite !join_empty_sep.
  rewrite List.filter_app, map_app, joined_app. simpl.
  by destruct (is_TagToken (token_type token)).
Qed.

(** ** The search-space reduction, further *)

Lemma elem_of_loop_state self rest work t :
  t ∈ loop_state rest (intersect_callers self) work <->
  t ∈ work /\ forall f, In f rest -> t ∈ callers self f.
Proof.
  revert work. induction rest as [|f rest IH]; intros work; simpl.
  - split; [intros H; split; [done|intros f []]|by intros [H _]].
  - rewrite IH. unfold intersect_callers. rewrite elem_of_intersection.
    split.
    + intros [[Hw Hf] Hrest]. split; [done|]. intros g [<-|Hg]; auto.
    + intros [Hw Hall]. split; [split|]; auto.
Qed.

Lemma elem_of_reduced self f0 rest t :
  t ∈ reduced self f0 rest <-> forall f, In f (f0 :: rest) -> t ∈ callers self f.
Proof.
  unfold reduced. rewrite elem_of_loop_state. split.
  - intros [H0 Hrest] f [<-|Hf]; auto.
  - intros H. split; [apply H; by left|]. intros f Hf. apply H. by right.
Qed.

(** X9: the reduction returns the intersection of the anchors' caller
    sets: a function is in the working set exactly when it is around a
    call site of every anchor. *)
Theorem reduce_is_intersection (self : WeggliPlugin) (f0 : Function)
    (rest : list Function) :
  exists work,
    result (reduce self f0 rest) = Returned work /\
    forall t,
      t ∈ work <->
      forall f, In f (f0 :: rest) ->
        exists xref,
          In xref (get_callers (bv self) (start f)) /\
          In t (get_functions_containing (bv self) (address xref)).
Proof.
  exists (reduced self f0 rest). split; [by rewrite reduce_spec|].
  intros t. rewrite elem_of_reduced.
  split; intros H f Hf; apply elem_of_callers; auto.
Qed.

(** X10: the working set depends on which functions are anchors, not on
    their order or on how often one is named. *)
Theorem reduced_same_anchors (self : WeggliPlugin) (f0 g0 : Function)
    (rest rest' : list Function) :
  (forall f, In f (f0 :: rest) <-> In f (g0 :: rest')) ->
  result (reduce self f0 rest) = result (reduce self g0 rest').
Proof.
  intros H. rewrite !reduce_spec. simpl. f_equal.
  apply set_eq. intros t.
  fold (reduced self f0 rest). fold (reduced self g0 rest').
  rewrite !elem_of_reduced.
  split; intros Ht f Hf; apply Ht; by apply H.
Qed.

Lemma reduced_same_anchors_witness :
  result (reduce (Demo.plugin Log) Demo.memcpy [Demo.strlen]) =
  result (reduce (Demo.plugin Log) Demo.strlen
            [Demo.memcpy; Demo.strlen; Demo.memcpy]).
Proof.
  apply reduced_same_anchors. intros f. simpl. tauto.
Defined.

(** X11: an anchor that has no call site empties the working set,
    wherever it stands among the anchors. *)
Theorem reduce_anchor_without_callers (self : WeggliPlugin) (f0 : Function)
    (rest : list Function) (f : Function) :
  In f (f0 :: rest) ->
  get_callers (bv self) (start f) = [] ->
  result (reduce self f0 rest) = Returned ∅.
Proof.
  intros Hf Hnone. rewrite reduce_spec. simpl. f_equal.
  apply set_eq. intros t. fold (reduced self f0 rest).
  rewrite elem_of_reduced. split; [|set_solver].
  intros H. specialize (H f Hf). apply elem_of_callers in H as (xref & Hx & _).
  rewrite Hnone in Hx. done.
Qed.

Lemma reduce_anchor_without_callers_witness :
  get_callers Demo.view (start Demo.copy_block) = [] /\
  result (reduce (Demo.plugin Log) Demo.memcpy [Demo.copy_block]) = Returned ∅.
Proof.
  split; [reflexivity|].
  apply (reduce_anchor_without_callers (Demo.plugin Log) Demo.memcpy
           [Demo.copy_block] Demo.copy_block).
  - simpl. auto.
  - reflexivity.
Defined.

(** ** The whole run, further *)

Lemma filter_loop_trace {A S} (p : event -> bool) (body : A -> S -> M S)
    (step : A -> S -> S) (f : A -> list event) :
  (forall x s, List.filter p (trace (body x s)) = f x) ->
  forall xs s, List.filter p (loop_trace xs body step s) = flat_map f xs.
Proof.
  intros H xs. induction xs as [|x xs IH]; intros s; simpl; [done|].
  by rewrite List.filter_app, H, IH.
Qed.

Lemma flat_map_nil {A B} (l : list A) : flat_map (fun _ : A => @nil B) l = [].
Proof. by induction l. Qed.


Lemma Log_ne_ReportTab : String.eqb Log ReportTab = false.
Proof. done. Qed.

Section Outputs.

Context (W : Weggli) (ui : UI) (self : WeggliPlugin).


Lemma show_results_quiet code results report :
  String.eqb (output_format self) Log = false ->
  loop_trace results (show_result W ui self code)
    (show_result_report W ui self code) report = [].
Proof.
  intros Hlog. revert report.
  induction results as [|r results IH]; intros report; simpl; [done|].
  rewrite show_result_spec, IH, Hlog. done.
Qed.


Lemma show_results_same code results report :
  String.eqb (output_format self) ReportTab = false ->
  loop_state results (show_result_report W ui self code) report = report.
Proof.
  intros Hrep. revert report.
  induction results as [|r results IH]; intros report; simpl; [done|].
  rewrite IH. unfold show_result_report. by rewrite Hrep.
Qed.


Lemma round_caller_lookups qt target report :
  List.filter is_called_get_callers
    (trace (search_target W ui self qt target report)) = [].
Proof.
  apply filter_nil_of_all. intros e. rewrite search_target_spec. simpl.
  destruct (truth target); simpl; [|done].
  intros [<-|He]; [done|].
  destruct (0 <? _)%nat; [|done].
  apply in_app_iff in He as [He|He].
  - destruct (String.eqb (output_format self) Log); [|done].
    by destruct He as [<-|[]].
  - destruct (print_code self); [|done].
    apply show_results_trace in He as [msg ->]. done.
Qed.

Lemma round_no_report_shown qt target report :
  List.filter is_show_html_report
    (trace (search_target W ui self qt target report)) = [].
Proof.
  apply filter_nil_of_all. intros e. rewrite search_target_spec. simpl.
  destruct (truth target); simpl; [|done].
  intros [<-|He]; [done|].
  destruct (0 <? _)%nat; [|done].
  apply in_app_iff in He as [He|He].
  - destruct (String.eqb (output_format self) Log); [|done].
    by destruct He as [<-|[]].
  - destruct (print_code self); [|done].
    apply show_results_trace in He as [msg ->]. done.
Qed.


Lemma round_quiet qt target report :
  String.eqb (output_format self) Log = false ->
  List.filter is_output (trace (search_target W ui self qt target report)) = [].
Proof.
  intros Hlog. rewrite search_target_spec. simpl.
  destruct (truth target); simpl; [|done].
  destruct (0 <? _)%nat; [|done].
  rewrite Hlog. simpl.
  destruct (print_code self); [|done].
  by rewrite show_results_quiet.
Qed.



Lemma normalize_outputs query :
  List.filter is_output (trace (normalize query)) = trace (normalize query) /\
  List.filter is_show_html_report (trace (normalize query)) = [] /\
  List.filter is_called_matches (trace (normalize query)) = [] /\
  List.filter is_called_get_callers (trace (normalize query)) = [].
Proof.
  rewrite normalize_spec. simpl.
  by destruct (PyStr.find query ";" <? 0)%Z; destruct (_ || _)%Z.
Qed.

Lemma reduce_outputs f0 rest :
  List.filter is_output (trace (reduce self f0 rest)) = [] /\
  List.filter is_show_html_report (trace (reduce self f0 rest)) = [] /\
  List.filter is_called_matches (trace (reduce self f0 rest)) = [] /\
  List.filter is_called_get_callers (trace (reduce self f0 rest)) =
    map (fun f => called_get_callers (start f)) (f0 :: rest).
Proof.
  rewrite reduce_calls. generalize (f0 :: rest). intros l.
  induction l as [|f l (IH1 & IH2 & IH3 & IH4)]; simpl; [done|].
  by rewrite IH4.
Qed.

End Outputs.

Section Run_properties.

Context (W : Weggli) (ui : UI) (self : WeggliPlugin).

(** X12: a run raises exactly when the parser rejects the normalized
    query, and then it has emitted the normalization warnings and nothing
    else: no lookup, no matcher call, no report, also in Report Tab mode.
    Otherwise it returns. *)
Theorem run_query_parse_error (query : string) :
  (parse_query W (normalized query) = None /\
   run_query W ui self query = (trace (normalize query), Raised ParseError)) \/
  (exists qt,
     parse_query W (normalized query) = Some qt /\
     result (run_query W ui self query) = Returned tt).
Proof.
  rewrite run_query_spec.
  destruct (parse_query W (normalized query)) as [qt|]; [right|left].
  - by exists qt.
  - done.
Qed.

(** X13: the host is asked for the callers of every anchor once, in the
    anchors' order, and of nothing else, also when the working set is
    already empty before the last anchor. *)
Theorem run_query_caller_lookups (query : string) (qt : QueryTree W) :
  parse_query W (normalized query) = Some qt ->
  List.filter is_called_get_callers (trace (run_query W ui self query)) =
    map (fun f => called_get_callers (start f))
      (resolve self (identifiers W qt)).
Proof.
  intros Hparse. rewrite run_query_spec, Hparse. cbv zeta. simpl.
  rewrite !List.filter_app.
  destruct (normalize_outputs query) as (_ & _ & _ & ->). simpl.
  rewrite search_spec.
  destruct (resolve self (identifiers W qt)) as [|f0 rest]; simpl.
  - by destruct (String.eqb (output_format self) ReportTab).
  - rewrite List.filter_app.
    destruct (reduce_outputs self f0 rest) as (_ & _ & _ & ->). simpl.
    rewrite (filter_loop_trace _ _ _ (fun _ => []))
      by (intros; apply round_caller_lookups).
    rewrite flat_map_nil.
    destruct (String.eqb (output_format self) ReportTab); simpl;
      by rewrite !app_nil_r.
Qed.



(** X16: in every other mode than Report Tab no report is shown,
    whatever the query. *)
Theorem run_query_no_report (query : string) :
  output_format self <> ReportTab ->
  List.filter is_show_html_report (trace (run_query W ui self query)) = [].
Proof.
  intros Hrep. apply String.eqb_neq in Hrep.
  rewrite run_query_spec.
  destruct (normalize_outputs query) as (_ & Hnorm & _ & _).
  destruct (parse_query W (normalized query)) as [qt|]; [|done].
  cbv zeta. simpl. rewrite !List.filter_app, Hnorm, Hrep. simpl.
  rewrite app_nil_r, search_spec.
  destruct (resolve self (identifiers W qt)) as [|f0 rest]; simpl; [done|].
  rewrite List.filter_app.
  destruct (reduce_outputs self f0 rest) as (_ & -> & _ & _). simpl.
  rewrite (filter_loop_trace _ _ _ (fun _ => []))
    by (intros; apply round_no_report_shown).
  by rewrite flat_map_nil.
Qed.


(** X18: with an output format that is neither [Log] nor [Report Tab]
    the matcher still runs, yet all a run that parses shows is the
    normalization warnings and the line with the size of the working set. *)
Theorem run_query_other_format (query : string) (qt : QueryTree W) :
  output_format self <> Log ->
  output_format self <> ReportTab ->
  parse_query W (normalized query) = Some qt ->
  List.filter is_output (trace (run_query W ui self query)) =
    trace (normalize query) ++
    match resolve self (identifiers W qt) with
    | [] => []
    | f0 :: rest => [log_info (searching (size (reduced self f0 rest)))]
    end.
Proof.
  intros Hlog Hrep Hparse.
  apply String.eqb_neq in Hlog, Hrep.
  rewrite run_query_spec, Hparse. cbv zeta. simpl.
  rewrite !List.filter_app.
  destruct (normalize_outputs query) as (-> & _ & _ & _).
  rewrite Hrep. simpl. rewrite app_nil_r. f_equal.
  rewrite search_spec.
  destruct (resolve self (identifiers W qt)) as [|f0 rest]; simpl; [done|].
  rewrite List.filter_app.
  destruct (reduce_outputs self f0 rest) as (-> & _ & _ & _). simpl.
  f_equal.
  rewrite (filter_loop_trace _ _ _ (fun _ => []))
    by (intros; by apply round_quiet).
  by rewrite flat_map_nil.
Qed.

End Run_properties.

(** ** Runs on the small binary, further *)

Lemma run_query_caller_lookups_witness :
  List.filter is_called_get_callers
    (trace (run_query Demo.weggli Demo.ui (Demo.plugin Log)
              "memcpy(_, _, strlen(_))")) =
  [called_get_callers 4096; called_get_callers 4128].
Proof.
  exact (run_query_caller_lookups Demo.weggli Demo.ui (Demo.plugin Log)
           "memcpy(_, _, strlen(_))" "{memcpy(_, _, strlen(_));}" eq_refl).
Defined.



Lemma run_query_no_report_witness :
  output_format (Demo.plugin Log) <> ReportTab /\
  List.filter is_show_html_report
    (trace (run_query Demo.weggli Demo.ui (Demo.plugin Log) "memcpy(_, _, _)")) = [].
Proof.
  assert (H : output_format (Demo.plugin Log) <> ReportTab) by discriminate.
  split; [exact H|].
  exact (run_query_no_report Demo.weggli Demo.ui (Demo.plugin Log)
           "memcpy(_, _, _)" H).
Defined.


Lemma run_query_other_format_witness :
  output_format (Demo.plugin "Create Tags") <> Log /\
  List.filter is_output
    (trace (run_query Demo.weggli Demo.ui (Demo.plugin "Create Tags")
              "memcpy(_, _, strlen(_))")) =
  [log_warn warn_semicolon; log_warn warn_braces;
   log_info "Searching through 1 functions.."].
Proof.
  assert (H1 : output_format (Demo.plugin "Create Tags") <> Log) by discriminate.
  assert (H2 : output_format (Demo.plugin "Create Tags") <> ReportTab)
    by discriminate.
  split; [exact H1|].
  exact (run_query_other_format Demo.weggli Demo.ui (Demo.plugin "Create Tags")
           "memcpy(_, _, strlen(_))" "{memcpy(_, _, strlen(_));}"
           H1 H2 eq_refl).
Defined.

(** ** The command *)

Module CommandFacts.

Lemma index_None (l : list string) (x : string) :
  Command.index l x = None <-> ~ In x l.
Proof.
  induction l as [|y l IH]; simpl; [tauto|].
  destruct (String.eqb_spec y x) as [->|Hne].
  - split; [discriminate|]. intros H. destruct H. by left.
  - destruct (Command.index l x) eqn:E; simpl.
    + split; [discriminate|]. intros H. exfalso.
      assert (Some n = None) by (apply IH; tauto). done.
    + split; [|done]. intros _ [H|H]; [done|]. by apply IH.
Qed.

Lemma index_Some (l : list string) (x : string) (n : nat) :
  Command.index l x = Some n -> l !! n = Some x.
Proof.
  revert n. induction l as [|y l IH]; intros n; simpl; [discriminate|].
  destruct (String.eqb_spec y x) as [->|Hne].
  - by intros [= <-].
  - destruct (Command.index l x) as [m|]; simpl; [|discriminate].
    intros [= <-]. simpl. by apply IH.
Qed.

Section Invocations.

Context (W : Weggli) (ui : UI) (settings : Command.Settings)
  (form : Command.Form) (view : BinaryView) (qsettings : gmap string string).


(** X19: the command raises [ValueError] exactly when the stored output
    mode is not one of the two choices, and then before the form is
    shown: nothing is stored and nothing runs. *)
Theorem run_query_ValueError :
  Command.ended (Command.run_query W ui settings form view qsettings) =
    Command.Raise Command.ValueError <->
  ~ In (Command.get_string settings "weggli.default_output") Command.choices /\
  Command.qsettings_after
    (Command.run_query W ui settings form view qsettings) = qsettings /\
  Command.events (Command.run_query W ui settings form view qsettings) = [].
Proof.
  unfold Command.run_query. rewrite <- index_None.
  destruct (Command.index _ _) as [d|]; [|done].
  split; [|by intros [? _]]. intros H. exfalso.
  destruct (form d _) as [[i q]|]; [|done].
  destruct (Command.choices !! i); [|done].
  simpl in H. by destruct (result _).
Qed.

(** X20: once the form is confirmed, the query text entered is what
    the next invocation starts its query field with, however this
    invocation ends: the text is stored before the query is run. *)
Theorem run_query_remembers_text (d i : nat) (q : string) :
  Command.index Command.choices
    (Command.get_string settings "weggli.default_output") = Some d ->
  form d (Command.default_text qsettings) = Some (i, q) ->
  Command.default_text
    (Command.qsettings_after
       (Command.run_query W ui settings form view qsettings)) = q.
Proof.
  unfold Command.run_query. intros -> ->.
  unfold Command.default_text at 1.
  destruct (Command.choices !! i); simpl; by rewrite lookup_insert_eq.
Qed.


(** X22: without a confirmed form the command has no effect: if a
    stored (Command.get_string settings "weggli.default_output") changed or any event happened, the stored output mode
    was a choice and the user confirmed the form. *)
Theorem run_query_needs_confirmation :
  Command.qsettings_after
    (Command.run_query W ui settings form view qsettings) <> qsettings \/
  Command.events (Command.run_query W ui settings form view qsettings) <> [] ->
  exists d i q,
    Command.index Command.choices
      (Command.get_string settings "weggli.default_output") = Some d /\
    form d (Command.default_text qsettings) = Some (i, q).
Proof.
  unfold Command.run_query.
  destruct (Command.index _ _) as [d|]; [|intros [H|H]; by destruct H].
  destruct (form d _) as [[i q]|] eqn:E; [|intros [H|H]; by destruct H].
  intros _. by exists d, i, q.
Qed.

(** X23: a user who confirms the preselected choice runs the query in
    the stored output mode, with code printed as the stored (Command.get_string settings "weggli.default_output") says. *)
Theorem run_query_preselected (d : nat) (q : string) :
  Command.index Command.choices
    (Command.get_string settings "weggli.default_output") = Some d ->
  form d (Command.default_text qsettings) = Some (d, q) ->
  Command.events (Command.run_query W ui settings form view qsettings) =
    trace (run_query W ui
             {| bv := view;
                print_code := Command.get_bool settings "weggli.show_code";
                output_format :=
                  Command.get_string settings "weggli.default_output" |} q).
Proof.
  unfold Command.run_query. intros Hd Hform.
  rewrite Hd, Hform. apply index_Some in Hd. by rewrite Hd.
Qed.

End Invocations.

End CommandFacts.

(** ** Invocations on the small binary *)

Lemma run_query_remembers_text_witness :
  Command.default_text
    (Command.qsettings_after
       (Command.run_query Demo.weggli Demo.ui DemoCommand.settings
          DemoCommand.types_query Demo.view DemoCommand.stored)) =
  "memcpy(_, _, _)".
Proof.
  exact (CommandFacts.run_query_remembers_text Demo.weggli Demo.ui
           DemoCommand.settings DemoCommand.types_query Demo.view
           DemoCommand.stored 0 1 "memcpy(_, _, _)" eq_refl eq_refl).
Defined.


Lemma run_query_needs_confirmation_witness :
  Command.events
    (Command.run_query Demo.weggli Demo.ui DemoCommand.settings
       DemoCommand.types_query Demo.view DemoCommand.stored) <> [] /\
  exists d i q,
    Command.index Command.choices
      (Command.get_string DemoCommand.settings "weggli.default_output") = Some d /\
    DemoCommand.types_query d (Command.default_text DemoCommand.stored) =
      Some (i, q).
Proof.
  assert (H : Command.events
    (Command.run_query Demo.weggli Demo.ui DemoCommand.settings
       DemoCommand.types_query Demo.view DemoCommand.stored) <> []).
  { vm_compute. discriminate. }
  split; [exact H|].
  exact (CommandFacts.run_query_needs_confirmation Demo.weggli Demo.ui
           DemoCommand.settings DemoCommand.types_query Demo.view
           DemoCommand.stored (or_intror H)).
Defined.

Lemma run_query_preselected_witness :
  Command.events
    (Command.run_query Demo.weggli Demo.ui DemoCommand.settings
       DemoCommand.accepts Demo.view DemoCommand.stored) =
  trace (run_query Demo.weggli Demo.ui
           {| bv := Demo.view; print_code := true;
              output_format := "Report Tab" |} "strlen(_)").
Proof.
  exact (CommandFacts.run_query_preselected Demo.weggli Demo.ui
           DemoCommand.settings DemoCommand.accepts Demo.view
           DemoCommand.stored 0 "strlen(_)" eq_refl eq_refl).
Defined.
